(** * The conversation endpoint of the prompt gateway

    A shallow embedding of [src/api/src/routers/conversation.py]: the
    request handler [conversation_endpoint], its helpers
    [enhance_prompt], [handle_streaming_response] (with the generator
    [stream_generator]) and [handle_non_streaming_response].

    The handler is effectful: it opens tracing spans, logs, calls the model
    adapter, raises and catches exceptions and writes two metrics.  Each of
    these effects is an [Event] appended to the log of the request, and the
    code is written in a state-and-exception monad [M] over that log and the
    tracer's state.  The collaborators that live outside the file (the two
    prompt dictionaries, [str.format], [repr], the two adapter functions) are
    variables of the section. *)

From Stdlib Require Import ZArith Lia Ascii.
From stdpp Require Import base option list gmap strings pretty.

Open Scope string_scope.
Open Scope list_scope.

(** ** Data *)

(** Modelled from the spec: [ConversationIn] (src.schemas.prompt_schema) is
    imported by the router but its declaration is not among the sources; the
    spec gives its five fields, with [history] an ordered list of
    role/content pairs. *)
Record Turn := { turn_role : string; turn_content : string }.

Record ConversationIn := {
  prompt_type : string;
  message : string;
  history : list Turn;
  stream : bool;
  latest_prompt : string
}.

(** The exceptions the handler can meet.  [KeyError] comes from a dictionary
    subscript, [IndexError] from a list subscript, [AttributeError] from an
    attribute access; [RaisedError] is any other exception class, raised by a
    collaborator, together with the text [str] gives for it. *)
Inductive PyException :=
| KeyError (key : string)
| IndexError (msg : string)
| AttributeError (msg : string)
| HTTPException (status_code : Z) (detail : string)
| RaisedError (cls : string) (msg : string).

(** Modelled from the spec: what the adapter's single-shot call returns, a
    plain completion or (with [parse=True]) a structured object with named
    string fields; the adapter module (src.llms.litellm) is not among the
    sources. *)
Inductive Completion :=
| PlainText (text : string)
| Structured (fields : gmap string string).

(** One element of the adapter's stream, read by the generator as
    [chunk.choices[0].delta.content]. *)
Record Delta := { content : option string }.
Record StreamingChoice := { delta : Delta }.
Record Chunk := { choices : list StreamingChoice }.

(** The adapter's lazy sequence: the chunks it yields and then either the end
    of the sequence ([None]) or the exception it raises instead of a next
    chunk. *)
Record AdapterStream := {
  fragments : list Chunk;
  failure : option PyException
}.

(** Keyword arguments of an adapter call; an argument that the call site does
    not pass is [None]. *)
Record AdapterArgs := {
  arg_prompt : string;
  arg_model : string;
  arg_system_prompt : option string;
  arg_history : option (list Turn);
  arg_parse : option bool;
  arg_prompt_type : option string
}.

(** Tracing: a span context is the identity of a span; [trace.Link] wraps
    the context of the span referred to. *)
Record Link := { link_context : nat }.

Record Span := {
  span_name : string;
  span_context : nat;
  span_parent : option nat;
  span_links : list Link
}.

Inductive Event :=
| SpanStart (s : Span)
| SpanEnd (ctx : nat)
| LoggerInfo (msg : string)
| LoggerError (msg : string)
| NonStreamCall (kwargs : AdapterArgs) (outcome : PyException + Completion)
| StreamCall (kwargs : AdapterArgs) (produced : AdapterStream)
| Yield (chunk : string)
| CounterAdd (amount : Z) (attributes : gmap string string)
| HistogramRecord (amount : Z) (attributes : gmap string string).

(** The generator object made by [stream_generator()]: a closure over the
    two variables of [handle_streaming_response]; nothing of its body has run
    when it is created. *)
Record StreamGenerator := {
  gen_final_prompt : string;
  gen_history : list Turn
}.

(** What the handler returns: the dictionary of the buffered path or the
    [StreamingResponse] of the incremental one. *)
Inductive HandlerResult :=
| ReturnDict (d : gmap string Completion)
| StreamingResponse (body : StreamGenerator) (media_type : string).

(** ** The monad: request log, tracer state, exceptions *)

Record World := {
  events : list Event;
  current_span : list nat;
  next_span : nat
}.

Definition M (A : Type) : Type := World -> (PyException + A) * World.

Definition ret {A} (a : A) : M A := fun w => (inr a, w).

Definition bind {A B} (m : M A) (f : A -> M B) : M B :=
  fun w =>
    match m w with
    | (inl e, w') => (inl e, w')
    | (inr a, w') => f a w'
    end.

Definition raise {A} (e : PyException) : M A := fun w => (inl e, w).

Definition lift {A} (r : PyException + A) : M A := fun w => (r, w).

Definition emit (ev : Event) : M unit :=
  fun w => (inr tt, {| events := events w ++ [ev];
                       current_span := current_span w;
                       next_span := next_span w |}).

Declare Scope py_scope.
Delimit Scope py_scope with py.
Notation "x <- m ;; k" := (bind m (fun x => k))
  (at level 100, m at next level, right associativity) : py_scope.
Notation "m ;; k" := (bind m (fun _ => k))
  (at level 100, right associativity) : py_scope.
Open Scope py_scope.

(** [try: body except Exception as e: handler e] *)
Definition try_except {A} (body : M A) (handler : PyException -> M A) : M A :=
  fun w =>
    match body w with
    | (inl e, w') => handler e w'
    | (inr a, w') => (inr a, w')
    end.

(** [try: body finally: cleanup]: the cleanup runs on every exit of the
    body; an exception of the cleanup replaces the outcome of the body. *)
Definition try_finally {A} (body : M A) (cleanup : M unit) : M A :=
  fun w =>
    match body w with
    | (r, w') =>
        match cleanup w' with
        | (inl e, w'') => (inl e, w'')
        | (inr _, w'') => (r, w'')
        end
    end.

(** [with tracer.start_as_current_span(name, links=links) as span: body].
    No [context=] is passed, so the span is started in the current context:
    its parent is the span that is current at that moment.  The span is
    current during the body and is ended when the block is left, also by an
    exception, which propagates. *)
Definition start_as_current_span {A}
    (name : string) (links : list Link) (body : nat -> M A) : M A :=
  fun w =>
    let ctx := next_span w in
    let span := {| span_name := name; span_context := ctx;
                   span_parent := head (current_span w);
                   span_links := links |} in
    let w1 := {| events := events w ++ [SpanStart span];
                 current_span := ctx :: current_span w;
                 next_span := S ctx |} in
    match body ctx w1 with
    | (r, w2) =>
        (r, {| events := events w2 ++ [SpanEnd ctx];
               current_span := tail (current_span w2);
               next_span := next_span w2 |})
    end.

Definition get_span_context (span : nat) : nat := span.

Definition logger_info (msg : string) : M unit := emit (LoggerInfo msg).
Definition logger_error (msg : string) : M unit := emit (LoggerError msg).
Definition counter_add (amount : Z) (attributes : gmap string string) : M unit :=
  emit (CounterAdd amount attributes).
Definition histogram_record (amount : Z) (attributes : gmap string string) : M unit :=
  emit (HistogramRecord amount attributes).

(** [d[key]] on a dictionary. *)
Definition getitem {V} (d : gmap string V) (key : string) : M V :=
  match d !! key with
  | Some v => ret v
  | None => raise (KeyError key)
  end.

(** The double quote character of the two log messages. *)
Definition dquote : string := String "034"%char EmptyString.

(** [not history] on a list. *)
Definition not_ {A} (l : list A) : bool :=
  match l with
  | [] => true
  | _ :: _ => false
  end.

(** [enhanced_prompt.final_prompt] *)
Definition final_prompt_of (c : Completion) : PyException + string :=
  match c with
  | PlainText _ =>
      inl (AttributeError "'str' object has no attribute 'final_prompt'")
  | Structured fields =>
      match fields !! "final_prompt" with
      | Some s => inr s
      | None => inl (AttributeError "object has no attribute 'final_prompt'")
      end
  end.

(** [chunk.choices[0].delta.content] *)
Definition first_delta_content (chunk : Chunk) : PyException + option string :=
  match choices chunk with
  | [] => inl (IndexError "list index out of range")
  | choice :: _ => inr (content (delta choice))
  end.

(** ** The transport around the handler *)

Inductive Json :=
| JString (s : string)
| JObject (fields : gmap string string).

Definition jsonable_encoder (c : Completion) : Json :=
  match c with
  | PlainText text => JString text
  | Structured fields => JObject fields
  end.

(** A response as the client sees it.  An event stream carries the chunks
    sent and how it stopped: [None] when the body ended, [Some e] when the
    body raised [e] after those chunks. *)
Inductive HttpResponse :=
| JSONResponse (status_code : Z) (content : gmap string Json)
| PlainTextResponse (status_code : Z) (text : string)
| EventStream (status_code : Z) (media_type : string)
    (chunks : list string) (terminal : option PyException).

Definition yield_of (ev : Event) : option string :=
  match ev with
  | Yield chunk => Some chunk
  | _ => None
  end.

(** The chunks yielded in a log, in order. *)
Definition yields (log : list Event) : list string := omap yield_of log.

Definition raised {A} (r : PyException + A) : option PyException :=
  match r with
  | inl e => Some e
  | inr _ => None
  end.

(** The world of a request: an empty log, and whatever span is current
    around the handler ([ambient]) with the tracer's next span identity. *)
Definition request_world (ambient : list nat) (next : nat) : World :=
  {| events := []; current_span := ambient; next_span := next |}.

Section Endpoint.

(** Python's [repr] on a string: [str] of a [KeyError] is the [repr] of the
    missing key. *)
Variable repr : string -> string.

(** The prompt catalog (src.configs.prompt_config.prompt_loader). *)
Variable PROMPT_TEMPLATES : gmap string string.
Variable SYSTEM_PROMPTS : gmap string string.

(** [template.format(prompt=p)]: the formatted text, or the exception that
    [str.format] raises on a template it cannot fill. *)
Variable format : string -> string -> PyException + string.

(** The model adapter (src.llms.litellm).  A call may depend on everything
    the request has done so far. *)
Variable generate_response_non_stream :
  list Event -> AdapterArgs -> PyException + Completion.
Variable generate_response_stream :
  list Event -> AdapterArgs -> AdapterStream.

(** [str(e)] *)
Definition str (e : PyException) : string :=
  match e with
  | KeyError key => repr key
  | IndexError msg => msg
  | AttributeError msg => msg
  | HTTPException status_code detail => pretty status_code +:+ ": " +:+ detail
  | RaisedError _ msg => msg
  end.

Definition await_non_stream (kwargs : AdapterArgs) : M Completion :=
  fun w =>
    let outcome := generate_response_non_stream (events w) kwargs in
    (outcome, {| events := events w ++ [NonStreamCall kwargs outcome];
                 current_span := current_span w;
                 next_span := next_span w |}).

Definition open_stream (kwargs : AdapterArgs) : M AdapterStream :=
  fun w =>
    let produced := generate_response_stream (events w) kwargs in
    (inr produced, {| events := events w ++ [StreamCall kwargs produced];
                      current_span := current_span w;
                      next_span := next_span w |}).

(** Enhances the initial prompt using a smaller language model. *)
Definition enhance_prompt (prompt_type latest_prompt : string) : M string :=
  logger_info ("Enhancing prompt with latest prompt: "
               +:+ dquote +:+ latest_prompt +:+ dquote) ;;
  system_prompt <- getitem SYSTEM_PROMPTS prompt_type ;;
  enhanced_prompt <- await_non_stream
    {| arg_prompt := latest_prompt;
       arg_model := "gpt-4o-mini";
       arg_system_prompt := Some system_prompt;
       arg_history := None;
       arg_parse := Some true;
       arg_prompt_type := Some prompt_type |} ;;
  lift (final_prompt_of enhanced_prompt).

(** The body of the [async for] of [stream_generator], over what is left of
    the adapter's sequence; [chunk_count] is the local counter. *)
Fixpoint stream_loop (chunk_count : nat) (items : list Chunk)
    (ending : option PyException) : M unit :=
  match items with
  | [] =>
      match ending with
      | None => ret tt
      | Some e => raise e
      end
  | chunk :: rest =>
      c <- lift (first_delta_content chunk) ;;
      match c with
      | Some text =>
          let chunk_count := S chunk_count in
          emit (Yield text) ;;
          logger_info ("Streamed " +:+ pretty chunk_count +:+ " chunks.") ;;
          stream_loop chunk_count rest ending
      | None =>
          logger_info ("Streamed " +:+ pretty chunk_count +:+ " chunks.") ;;
          stream_loop chunk_count rest ending
      end
  end.

(** Running the generator to its end, as the transport does with the body
    of a [StreamingResponse]. *)
Definition stream_generator (g : StreamGenerator) : M unit :=
  let chunk_count := 0 in
  produced <- open_stream
    {| arg_prompt := gen_final_prompt g;
       arg_model := "gemini-flash";
       arg_system_prompt := None;
       arg_history := Some (gen_history g);
       arg_parse := None;
       arg_prompt_type := None |} ;;
  stream_loop chunk_count (fragments produced) (failure produced).

(** Generates a streaming response using the specified language model. *)
Definition handle_streaming_response (final_prompt : string)
    (history : list Turn) : M HandlerResult :=
  ret (StreamingResponse
         {| gen_final_prompt := final_prompt; gen_history := history |}
         "text/event-stream").

(** Generates a non-streaming response using the specified language model. *)
Definition handle_non_streaming_response (final_prompt : string)
    (history : list Turn) : M HandlerResult :=
  response <- await_non_stream
    {| arg_prompt := final_prompt;
       arg_model := "gemini-flash";
       arg_system_prompt := None;
       arg_history := Some history;
       arg_parse := None;
       arg_prompt_type := None |} ;;
  ret (ReturnDict {[ "response" := response ]}).

(** Endpoint for handling conversation requests. *)
Definition conversation_endpoint (data : ConversationIn) : M HandlerResult :=
  start_as_current_span "processors" [] (fun processors =>
    let prompt_type := prompt_type data in
    let message := message data in
    let history := history data in
    let stream := stream data in
    let latest_prompt := latest_prompt data in
    let total_duration := 0%Z in
    try_finally
      (try_except
         (template <- getitem PROMPT_TEMPLATES prompt_type ;;
          formatted_latest_prompt <- lift (format template latest_prompt) ;;
          final_prompt <-
            start_as_current_span "step-1-enhance_prompt"
              [ {| link_context := get_span_context processors |} ]
              (fun _ =>
                 if not_ history
                 then enhance_prompt prompt_type formatted_latest_prompt
                 else ret message) ;;
          logger_info ("Generating response with prompt: "
                       +:+ dquote +:+ final_prompt +:+ dquote) ;;
          response <-
            start_as_current_span "step-2-generate_response"
              [ {| link_context := get_span_context processors |} ]
              (fun _ =>
                 if stream
                 then handle_streaming_response final_prompt history
                 else handle_non_streaming_response final_prompt history) ;;
          ret response)
         (fun e =>
            logger_error ("Error in conversation endpoint: " +:+ str e) ;;
            raise (HTTPException 500 ("An Error occurred: " +:+ str e))))
      (let label : gmap string string :=
         {[ "api" := "/api/promptalchemy_conversation/conversation" ]} in
       counter_add 1 label ;;
       histogram_record total_duration label)).

(** Modelled from the spec: the web framework's treatment of what the path
    operation returns or raises (section 6 of the spec); the framework is
    not part of the sources.  A returned dictionary is a 200 JSON body; an
    [HTTPException] is a JSON body with the one key [detail] under its own
    status code; any other exception is the plain 500 of the server; a
    [StreamingResponse] is a 200 whose body is the generator, run until it
    ends or raises, each yielded chunk being sent as it comes. *)
Definition conversation_request (data : ConversationIn)
    : World -> HttpResponse * World :=
  fun w =>
    match conversation_endpoint data w with
    | (inl (HTTPException status_code detail), w1) =>
        (JSONResponse status_code {[ "detail" := JString detail ]}, w1)
    | (inl _, w1) =>
        (PlainTextResponse 500 "Internal Server Error", w1)
    | (inr (ReturnDict d), w1) =>
        (JSONResponse 200 (jsonable_encoder <$> d), w1)
    | (inr (StreamingResponse body media_type), w1) =>
        match stream_generator body w1 with
        | (r, w2) =>
            (EventStream 200 media_type
               (yields (drop (length (events w1)) (events w2)))
               (raised r),
             w2)
        end
    end.

(** The log of a request whose template lookup or formatting fails with
    [e]: the root span, the error line and the metrics. *)
Definition failed_before_stages (e : PyException) (ambient : list nat)
    (next : nat) : list Event :=
  [ SpanStart {| span_name := "processors"; span_context := next;
                 span_parent := head ambient; span_links := [] |};
    LoggerError ("Error in conversation endpoint: " +:+ str e);
    CounterAdd 1 {[ "api" := "/api/promptalchemy_conversation/conversation" ]};
    HistogramRecord 0
      {[ "api" := "/api/promptalchemy_conversation/conversation" ]};
    SpanEnd next ].

(** What the client gets for a request, and the log the request leaves. *)
Definition response_of (data : ConversationIn) (ambient : list nat)
    (next : nat) : HttpResponse :=
  fst (conversation_request data (request_world ambient next)).

Definition log_of (data : ConversationIn) (ambient : list nat)
    (next : nat) : list Event :=
  events (snd (conversation_request data (request_world ambient next))).

End Endpoint.


(** ** Reading a log *)

Definition span_of (ev : Event) : option Span :=
  match ev with
  | SpanStart s => Some s
  | _ => None
  end.

(** The spans started in a log, in order. *)
Definition spans (log : list Event) : list Span := omap span_of log.

(** An adapter call: [true] for the streaming function, with its keyword
    arguments. *)
Definition adapter_call_of (ev : Event) : option (bool * AdapterArgs) :=
  match ev with
  | NonStreamCall kwargs _ => Some (false, kwargs)
  | StreamCall kwargs _ => Some (true, kwargs)
  | _ => None
  end.

Definition adapter_calls (log : list Event) : list (bool * AdapterArgs) :=
  omap adapter_call_of log.

(** The calls of the enhancement stage are the ones to the smaller model,
    the calls of the generation stage the ones to the primary model. *)
Definition is_enhancement (call : bool * AdapterArgs) : bool :=
  String.eqb (arg_model (snd call)) "gpt-4o-mini".

Definition is_generation (call : bool * AdapterArgs) : bool :=
  String.eqb (arg_model (snd call)) "gemini-flash".

Definition enhancement_calls (log : list Event) : list (bool * AdapterArgs) :=
  List.filter is_enhancement (adapter_calls log).

Definition generation_calls (log : list Event) : list (bool * AdapterArgs) :=
  List.filter is_generation (adapter_calls log).

Definition counter_add_of (ev : Event) : option (Z * gmap string string) :=
  match ev with
  | CounterAdd amount attributes => Some (amount, attributes)
  | _ => None
  end.

Definition histogram_record_of (ev : Event) : option (Z * gmap string string) :=
  match ev with
  | HistogramRecord amount attributes => Some (amount, attributes)
  | _ => None
  end.

Definition counter_adds (log : list Event) : list (Z * gmap string string) :=
  omap counter_add_of log.

Definition histogram_records (log : list Event) : list (Z * gmap string string) :=
  omap histogram_record_of log.

(** The keyword arguments of the two call sites of the single-shot adapter
    function and of the call site of the streaming one, for the statements
    below. *)
Definition enhancement_kwargs (formatted system_prompt prompt_type : string)
    : AdapterArgs :=
  {| arg_prompt := formatted;
     arg_model := "gpt-4o-mini";
     arg_system_prompt := Some system_prompt;
     arg_history := None;
     arg_parse := Some true;
     arg_prompt_type := Some prompt_type |}.

Definition generation_kwargs (final_prompt : string) (history : list Turn)
    : AdapterArgs :=
  {| arg_prompt := final_prompt;
     arg_model := "gemini-flash";
     arg_system_prompt := None;
     arg_history := Some history;
     arg_parse := None;
     arg_prompt_type := None |}.

(** What [enhance_prompt] returns for an outcome of its adapter call. *)
Definition enhancement_result (outcome : PyException + Completion)
    : PyException + string :=
  match outcome with
  | inl e => inl e
  | inr c => final_prompt_of c
  end.

(** The root span of a request, and the span of a stage: started while the
    root is current, with one link, to the root. *)
Definition root_span (ambient : list nat) (next : nat) : Span :=
  {| span_name := "processors"; span_context := next;
     span_parent := head ambient; span_links := [] |}.

Definition stage_span (name : string) (ctx : nat) (root : Span) : Span :=
  {| span_name := name; span_context := ctx;
     span_parent := Some (span_context root);
     span_links := [ {| link_context := span_context root |} ] |}.

(** The events of the generator's loop. *)
Definition stream_event (ev : Event) : bool :=
  match ev with
  | Yield _ | LoggerInfo _ => true
  | _ => false
  end.

Definition status_of (r : HttpResponse) : Z :=
  match r with
  | JSONResponse status_code _ => status_code
  | PlainTextResponse status_code _ => status_code
  | EventStream status_code _ _ _ => status_code
  end.

(** A 4xx status. *)
Definition client_error (r : HttpResponse) : Prop :=
  (400 <= status_of r < 500)%Z.

(** The label of both metrics: the route of the endpoint. *)
Definition route_label : gmap string string :=
  {[ "api" := "/api/promptalchemy_conversation/conversation" ]}.

(** The content of a fragment when it is present. *)
Definition present_content (chunk : Chunk) : option string :=
  match first_delta_content chunk with
  | inr (Some text) => Some text
  | _ => None
  end.

Definition has_choice (chunk : Chunk) : Prop := choices chunk <> [].

(** ** Stub collaborators for the concrete runs *)

Module Stub.

Definition repr (s : string) : string := "'" +:+ s +:+ "'".

Definition PROMPT_TEMPLATES : gmap string string :=
  {[ "creative" := "Be creative: {prompt}" ]}.

Definition SYSTEM_PROMPTS : gmap string string :=
  {[ "creative" := "You are a poet." ]}.

(** Enough of [str.format] for the stub template: the text before the
    placeholder, then the prompt. *)
Definition format (template p : string) : PyException + string :=
  if String.eqb template "Be creative: {prompt}"
  then inr ("Be creative: " +:+ p)
  else inl (RaisedError "ValueError" "unsupported template").

Definition enhanced : Completion :=
  Structured {[ "final_prompt" := "Write a vivid poem." ]}.

Definition non_stream_ok (_ : list Event) (kwargs : AdapterArgs)
    : PyException + Completion :=
  match arg_parse kwargs with
  | Some true => inr enhanced
  | _ => inr (PlainText ("answer to: " +:+ arg_prompt kwargs))
  end.

Definition non_stream_down (_ : list Event) (_ : AdapterArgs)
    : PyException + Completion :=
  inl (RaisedError "Timeout" "upstream timed out").

Definition chunk_of (c : option string) : Chunk :=
  {| choices := [ {| delta := {| content := c |} |} ] |}.

Definition stream_ok (_ : list Event) (_ : AdapterArgs) : AdapterStream :=
  {| fragments := [chunk_of (Some "Hel"); chunk_of None; chunk_of (Some "lo")];
     failure := None |}.

Definition stream_breaks (_ : list Event) (_ : AdapterArgs) : AdapterStream :=
  {| fragments := [chunk_of (Some "Hel"); chunk_of None; chunk_of (Some "lo")];
     failure := Some (RaisedError "APIError" "connection reset") |}.

Definition first_turn : ConversationIn :=
  {| prompt_type := "creative"; message := "";
     history := []; stream := false; latest_prompt := "write a poem" |}.

Definition later_turn : ConversationIn :=
  {| prompt_type := "creative"; message := "tell me more";
     history := [ {| turn_role := "user"; turn_content := "hi" |} ];
     stream := true; latest_prompt := "" |}.

Definition unknown_key : ConversationIn :=
  {| prompt_type := "unknown_key"; message := "tell me more";
     history := []; stream := false; latest_prompt := "write a poem" |}.

Definition later_turn_unknown_key : ConversationIn :=
  {| prompt_type := "unknown_key"; message := "tell me more";
     history := [ {| turn_role := "user"; turn_content := "hi" |} ];
     stream := true; latest_prompt := "" |}.

Definition response := response_of repr PROMPT_TEMPLATES SYSTEM_PROMPTS format.
Definition log := log_of repr PROMPT_TEMPLATES SYSTEM_PROMPTS format.

End Stub.

(** ** Further readings of a log *)

(** The starts and ends of spans, in order: [true] for a start, with the
    context of the span. *)
Definition span_event_of (ev : Event) : option (bool * nat) :=
  match ev with
  | SpanStart s => Some (true, span_context s)
  | SpanEnd ctx => Some (false, ctx)
  | _ => None
  end.

Definition span_events (log : list Event) : list (bool * nat) :=
  omap span_event_of log.

Definition error_line_of (ev : Event) : option string :=
  match ev with
  | LoggerError msg => Some msg
  | _ => None
  end.

Definition info_line_of (ev : Event) : option string :=
  match ev with
  | LoggerInfo msg => Some msg
  | _ => None
  end.

(** The lines written by [logger.error] and by [logger.info]. *)
Definition error_lines (log : list Event) : list string :=
  omap error_line_of log.

Definition info_lines (log : list Event) : list string :=
  omap info_line_of log.

(** The events of the generator: a call of the streaming adapter or a
    chunk sent. *)
Definition streaming_event (ev : Event) : bool :=
  match ev with
  | StreamCall _ _ | Yield _ => true
  | _ => false
  end.

(** The line the generator logs after each chunk of the adapter. *)
Definition streamed_line (chunk_count : nat) : string :=
  "Streamed " +:+ pretty chunk_count +:+ " chunks.".

(** The lines the handler logs before its two adapter calls. *)
Definition enhancing_line (p : string) : string :=
  "Enhancing prompt with latest prompt: " +:+ dquote +:+ p +:+ dquote.

Definition generating_line (p : string) : string :=
  "Generating response with prompt: " +:+ dquote +:+ p +:+ dquote.

(** The line that goes with an adapter call. *)
Definition prompt_line (call : bool * AdapterArgs) : string :=
  if is_enhancement call
  then enhancing_line (arg_prompt (snd call))
  else generating_line (arg_prompt (snd call)).

(** The same request with another [message]. *)
Definition with_message (m : string) (data : ConversationIn)
    : ConversationIn :=
  {| prompt_type := prompt_type data;
     message := m;
     history := history data;
     stream := stream data;
     latest_prompt := latest_prompt data |}.

(** The world the handler leaves when it returns or raises, before the
    transport does anything with its result. *)
Definition handler_world (repr : string -> string)
    (PROMPT_TEMPLATES SYSTEM_PROMPTS : gmap string string)
    (format : string -> string -> PyException + string)
    (generate_response_non_stream :
       list Event -> AdapterArgs -> PyException + Completion)
    (data : ConversationIn) (ambient : list nat) (next : nat) : World :=
  snd (conversation_endpoint repr PROMPT_TEMPLATES SYSTEM_PROMPTS format
         generate_response_non_stream data (request_world ambient next)).

(** More stub collaborators and requests. *)
Module Edge.

Definition first_turn_streamed : ConversationIn :=
  {| prompt_type := "creative"; message := "ignored";
     history := []; stream := true; latest_prompt := "write a poem" |}.

(** A single-shot adapter that answers with plain text whatever it is
    asked, also when a structured result is wanted. *)
Definition non_stream_plain (_ : list Event) (kwargs : AdapterArgs)
    : PyException + Completion :=
  inr (PlainText ("answer to: " +:+ arg_prompt kwargs)).

Definition no_choice : Chunk := {| choices := [] |}.

(** A streaming adapter whose second chunk has no choice. *)
Definition stream_with_gap (_ : list Event) (_ : AdapterArgs)
    : AdapterStream :=
  {| fragments := [Stub.chunk_of (Some "a"); no_choice;
                   Stub.chunk_of (Some "b")];
     failure := None |}.

End Edge.

(** ** Properties *)

(** Finds an event in an explicit log. *)
Ltac find_event :=
  solve [repeat first [apply list_elem_of_here | apply list_elem_of_further]].

Section Properties.

Variable repr : string -> string.
Variable PROMPT_TEMPLATES : gmap string string.
Variable SYSTEM_PROMPTS : gmap string string.
Variable format : string -> string -> PyException + string.
Variable generate_response_non_stream :
  list Event -> AdapterArgs -> PyException + Completion.
Variable generate_response_stream :
  list Event -> AdapterArgs -> AdapterStream.

Local Abbreviation response :=
  (response_of repr PROMPT_TEMPLATES SYSTEM_PROMPTS format
     generate_response_non_stream generate_response_stream).
Local Abbreviation log :=
  (log_of repr PROMPT_TEMPLATES SYSTEM_PROMPTS format
     generate_response_non_stream generate_response_stream).
Local Abbreviation str := (str repr).
Local Abbreviation failed_before_stages := (failed_before_stages repr).
Local Abbreviation run_generator := (stream_generator generate_response_stream).

Local Arguments yields : simpl never.

(** *** The generator's loop *)

(** The loop only appends yields and log lines, and leaves the tracer
    alone. *)
Lemma stream_loop_log items : forall n ending w,
  exists tr,
    events (snd (stream_loop n items ending w)) = events w ++ tr /\
    forallb stream_event tr = true /\
    current_span (snd (stream_loop n items ending w)) = current_span w /\
    next_span (snd (stream_loop n items ending w)) = next_span w.
Proof.
  induction items as [|chunk rest IH]; intros n ending w.
  - exists []. destruct ending; simpl; rewrite app_nil_r; auto.
  - simpl. unfold bind, lift at 1.
    destruct (first_delta_content chunk) as [e|[text|]]; simpl.
    + exists []. rewrite app_nil_r. auto.
    + match goal with |- context [stream_loop ?k rest ending ?w1] =>
        destruct (IH k ending w1) as (tr & Hev & Hall & Hc & Hn) end.
      exists (Yield text
                :: LoggerInfo ("Streamed " +:+ pretty (S n) +:+ " chunks.")
                :: tr).
      rewrite Hev, Hc, Hn. simpl. rewrite <- !app_assoc. auto.
    + match goal with |- context [stream_loop ?k rest ending ?w1] =>
        destruct (IH k ending w1) as (tr & Hev & Hall & Hc & Hn) end.
      exists (LoggerInfo ("Streamed " +:+ pretty n +:+ " chunks.") :: tr).
      rewrite Hev, Hc, Hn. simpl. rewrite <- !app_assoc. auto.
Qed.

Lemma yields_app l1 l2 : yields (l1 ++ l2) = yields l1 ++ yields l2.
Proof. unfold yields. apply omap_app. Qed.

(** On chunks that all have a first choice the loop yields the present
    contents, in order, and ends as the adapter's sequence ends. *)
Lemma stream_loop_yields items : forall n ending w,
  Forall has_choice items ->
  yields (events (snd (stream_loop n items ending w)))
    = yields (events w) ++ omap present_content items /\
  raised (fst (stream_loop n items ending w)) = ending.
Proof.
  induction items as [|chunk rest IH]; intros n ending w Hwf.
  - destruct ending; simpl; rewrite app_nil_r; auto.
  - inversion Hwf as [|? ? Hc Hrest]; subst.
    simpl. unfold bind, lift at 1, lift at 1, present_content, first_delta_content.
    destruct (choices chunk) as [|choice others] eqn:Hch.
    { exfalso. apply Hc. exact Hch. }
    destruct (content (delta choice)) as [text|]; simpl.
    + match goal with |- context [stream_loop ?k rest ending ?w1] =>
        destruct (IH k ending w1 Hrest) as [Hy Hr] end.
      rewrite Hy, Hr. simpl. rewrite !yields_app. simpl.
      rewrite app_nil_r, <- app_assoc. auto.
    + match goal with |- context [stream_loop ?k rest ending ?w1] =>
        destruct (IH k ending w1 Hrest) as [Hy Hr] end.
      rewrite Hy, Hr. simpl. rewrite !yields_app. simpl.
      rewrite app_nil_r. auto.
Qed.

(** The whole run of the generator: one call of the streaming adapter,
    then the loop. *)
Lemma stream_generator_run g w :
  let kwargs := generation_kwargs (gen_final_prompt g) (gen_history g) in
  let produced := generate_response_stream (events w) kwargs in
  exists tr,
    events (snd (run_generator g w))
      = events w ++ StreamCall kwargs produced :: tr /\
    forallb stream_event tr = true /\
    (Forall has_choice (fragments produced) ->
     yields tr = omap present_content (fragments produced) /\
     raised (fst (run_generator g w)) = failure produced).
Proof.
  intros kwargs produced.
  unfold stream_generator, bind, open_stream.
  fold kwargs. fold produced.
  match goal with |- context [stream_loop ?k ?i ?e ?w1] =>
    destruct (stream_loop_log i k e w1) as (tr & Hev & Hall & _);
    pose proof (stream_loop_yields i k e w1) as Hy end.
  exists tr. rewrite Hev. simpl. rewrite <- app_assoc.
  split; [reflexivity|]. split; [exact Hall|].
  intros Hwf. destruct (Hy Hwf) as [Hy1 Hy2]. split; [|exact Hy2].
  rewrite Hev in Hy1. simpl in Hy1.
  rewrite !yields_app in Hy1. simpl in Hy1.
  rewrite app_nil_r in Hy1.
  apply app_inv_head in Hy1. exact Hy1.
Qed.

(** A reading of the log that ignores yields and log lines sees nothing of
    the loop. *)
Lemma omap_stream_events {B} (f : Event -> option B) tr :
  (forall ev, stream_event ev = true -> f ev = None) ->
  forallb stream_event tr = true ->
  omap f tr = [].
Proof.
  intros Hf. induction tr as [|ev tr IH]; simpl; [reflexivity|].
  intros H. apply andb_prop in H as [H1 H2].
  rewrite (Hf ev H1). auto.
Qed.


(** *** The paths of the handler *)

(** Unfolds a request down to the calls of the collaborators. *)
Ltac unfold_request :=
  unfold response_of, log_of, conversation_request, conversation_endpoint,
    start_as_current_span, try_finally, try_except, enhance_prompt,
    handle_streaming_response, handle_non_streaming_response,
    await_non_stream, getitem, logger_info, logger_error, counter_add,
    histogram_record, emit, bind, ret, raise, lift, request_world,
    get_span_context in *;
  simpl in *.

(** Splits on the next collaborator outcome the run is waiting for. *)
Ltac next_outcome :=
  match goal with
  | |- context [match ?x with _ => _ end] =>
      lazymatch x with
      | context [match _ with _ => _ end] => fail
      | context [stream_generator] => fail
      | _ => destruct x eqn:?; simpl in *
      end
  end.

(** Replaces the run of the generator by the log it leaves. *)
Ltac generator_outcome :=
  match goal with
  | |- context [stream_generator ?gen ?g ?w] =>
      let tr := fresh "tr" in
      let Hlog := fresh "Hlog" in
      let Hloop := fresh "Hloop" in
      let Hwf := fresh "Hwf" in
      let r := fresh "r" in
      let ev := fresh "ev" in
      let cs := fresh "cs" in
      let ns := fresh "ns" in
      destruct (stream_generator_run g w) as (tr & Hlog & Hloop & Hwf);
      simpl in Hlog, Hwf;
      destruct (stream_generator gen g w) as [r [ev cs ns]] eqn:?;
      simpl in *; subst ev; simpl in *
  end.

(** All the paths of a request on the data [data]. *)
Ltac request_paths data :=
  destruct data as [pt msg hist st lp];
  unfold_request;
  destruct hist as [|? ?]; destruct st; simpl in *;
  repeat next_outcome;
  try generator_outcome.

(** A yield or a log line is no adapter call, span or metric. *)
Lemma loop_events_only tr ev :
  forallb stream_event tr = true -> ev ∈ tr -> stream_event ev = true.
Proof.
  intros Hall Hin. rewrite forallb_forall in Hall.
  apply list_elem_of_In in Hin. apply Hall in Hin. exact Hin.
Qed.

Lemma loop_has_no_call tr :
  forallb stream_event tr = true -> adapter_calls tr = [].
Proof.
  apply omap_stream_events. intros [] ?; try discriminate; reflexivity.
Qed.

Lemma loop_has_no_span tr :
  forallb stream_event tr = true -> spans tr = [].
Proof.
  apply omap_stream_events. intros [] ?; try discriminate; reflexivity.
Qed.

Lemma loop_has_no_metric tr :
  forallb stream_event tr = true ->
  counter_adds tr = [] /\ histogram_records tr = [].
Proof.
  intros H; split; apply omap_stream_events; auto;
    intros [] ?; try discriminate; reflexivity.
Qed.

(** Reads the adapter calls, spans and metrics of a log whose tail is the
    generator's loop. *)
Ltac read_log :=
  unfold enhancement_calls, generation_calls, adapter_calls, spans,
    counter_adds, histogram_records in *;
  simpl in *; unfold omap in *;
  repeat match goal with
  | H : forallb stream_event ?tr = true |- _ =>
      let Hc := fresh "Hc" in
      let Hs := fresh "Hs" in
      let Hm := fresh "Hm" in
      let Hh := fresh "Hh" in
      pose proof (loop_has_no_call tr H) as Hc;
      pose proof (loop_has_no_span tr H) as Hs;
      pose proof (loop_has_no_metric tr H) as [Hm Hh];
      unfold adapter_calls, spans, counter_adds, histogram_records, omap
        in Hc, Hs, Hm, Hh;
      rewrite ?Hc, ?Hs, ?Hm, ?Hh;
      clear Hc Hs Hm Hh; revert H
  end;
  intros; simpl in *.

(** The two metrics of a request, whatever its path. *)
Lemma metrics_of_request data ambient next :
  counter_adds (log data ambient next) = [(1%Z, route_label)] /\
  histogram_records (log data ambient next) = [(0%Z, route_label)].
Proof.
  request_paths data; read_log; split; reflexivity.
Qed.

(** The two ways of failing before the stages. *)
Lemma unresolved_run data ambient next :
  PROMPT_TEMPLATES !! prompt_type data = None ->
  log data ambient next
    = failed_before_stages (KeyError (prompt_type data)) ambient next /\
  response data ambient next
    = JSONResponse 500
        {[ "detail" := JString ("An Error occurred: "
                                +:+ repr (prompt_type data)) ]}.
Proof.
  intros Hnone. destruct data as [pt msg hist st lp]. simpl in Hnone.
  unfold_request. rewrite Hnone. simpl. split; reflexivity.
Qed.

Lemma unformatted_run data ambient next template e :
  PROMPT_TEMPLATES !! prompt_type data = Some template ->
  format template (latest_prompt data) = inl e ->
  log data ambient next = failed_before_stages e ambient next /\
  response data ambient next
    = JSONResponse 500
        {[ "detail" := JString ("An Error occurred: " +:+ str e) ]}.
Proof.
  intros Htpl Hfmt. destruct data as [pt msg hist st lp]. simpl in Htpl, Hfmt.
  unfold_request. rewrite Htpl. simpl. rewrite Hfmt. simpl.
  split; reflexivity.
Qed.

(** Splits a membership in an explicit log into its cases; a membership in
    the generator's loop is left only for a yield or a log line. *)
Ltac in_log H :=
  repeat (apply elem_of_cons in H as [H|H]; [try discriminate H|]);
  try (apply elem_of_nil in H; contradiction);
  try (match goal with
       | Hloop : forallb stream_event ?tr = true |- _ =>
           apply (loop_events_only tr _ Hloop) in H; discriminate H
       end).

(** *** The claims *)

(** C3: every request, whichever way it ends and whatever the collaborators
    do, makes exactly one increment of the request counter, by 1, and
    exactly one record into the duration histogram, both under the label of
    the route. *)
Theorem metrics_recorded_once data ambient next :
  counter_adds (log data ambient next) = [(1%Z, route_label)] /\
  length (histogram_records (log data ambient next)) = 1 /\
  Forall (fun r => snd r = route_label)
         (histogram_records (log data ambient next)).
Proof.
  destruct (metrics_of_request data ambient next) as [Hc Hh].
  rewrite Hc, Hh. repeat split. repeat constructor.
Qed.

(** C9: the duration put into the histogram is the initial value of
    [total_duration], 0, on every path of every request. *)
Theorem recorded_duration_is_zero data ambient next :
  fst <$> histogram_records (log data ambient next) = [0%Z].
Proof.
  destruct (metrics_of_request data ambient next) as [_ Hh].
  rewrite Hh. reflexivity.
Qed.

(** C4, as amended: a request whose prompt type has no template makes no
    adapter call and is answered with the 500 envelope whose detail carries
    the text of the [KeyError]. *)
Theorem unknown_prompt_type_fails_500 data ambient next :
  PROMPT_TEMPLATES !! prompt_type data = None ->
  adapter_calls (log data ambient next) = [] /\
  response data ambient next
    = JSONResponse 500
        {[ "detail" := JString ("An Error occurred: "
                                +:+ repr (prompt_type data)) ]}.
Proof.
  intros Hnone. destruct (unresolved_run data ambient next Hnone) as [Hl Hr].
  rewrite Hl, Hr. split; reflexivity.
Qed.

(** C10: the template is looked up and formatted before either stage, for
    every history: when the lookup or the formatting fails, no stage span is
    opened, no adapter call is made and the request fails, on a first turn
    and on a later turn alike. *)
Theorem template_evaluated_before_stages data ambient next :
  (PROMPT_TEMPLATES !! prompt_type data = None \/
   exists template e,
     PROMPT_TEMPLATES !! prompt_type data = Some template /\
     format template (latest_prompt data) = inl e) ->
  span_name <$> spans (log data ambient next) = ["processors"] /\
  adapter_calls (log data ambient next) = [] /\
  exists e,
    response data ambient next
      = JSONResponse 500
          {[ "detail" := JString ("An Error occurred: " +:+ str e) ]}.
Proof.
  intros [Hnone | (template & e & Htpl & Hfmt)].
  - destruct (unresolved_run data ambient next Hnone) as [Hl Hr].
    rewrite Hl, Hr. repeat split. exists (KeyError (prompt_type data)).
    reflexivity.
  - destruct (unformatted_run data ambient next template e Htpl Hfmt)
      as [Hl Hr].
    rewrite Hl, Hr. repeat split. exists e. reflexivity.
Qed.


(** C2: on a request with a non-empty history no call goes to the
    enhancement model, every call to the generation model carries the
    request's [message] as its prompt, and when the template resolves and
    formats there is exactly one such call. *)
Theorem later_turn_skips_enhancement data ambient next :
  history data <> [] ->
  enhancement_calls (log data ambient next) = [] /\
  (forall call, call ∈ generation_calls (log data ambient next) ->
     arg_prompt (snd call) = message data) /\
  (forall template formatted,
     PROMPT_TEMPLATES !! prompt_type data = Some template ->
     format template (latest_prompt data) = inr formatted ->
     adapter_calls (log data ambient next)
       = [(stream data, generation_kwargs (message data) (history data))]).
Proof.
  intros Hhist.
  request_paths data; try congruence; read_log.
  all: repeat split; try reflexivity.
  all: try (intros call Hin; repeat (apply elem_of_cons in Hin as [->|Hin]);
            try reflexivity; apply elem_of_nil in Hin; contradiction).
  all: intros; simplify_eq; congruence.
Qed.

(** C1, as amended: on a request with an empty history whose prompt type
    resolves in both dictionaries and whose template formats, the single-shot
    adapter is called exactly once for the enhancement, on the formatted
    latest prompt, the smaller model, the system prompt of the prompt type
    and [parse=True]; and the prompt of the generation call is the
    [final_prompt] of what that call returned (no generation call is made
    when it failed). *)
Theorem first_turn_enhances_once data ambient next
    template formatted system_prompt :
  history data = [] ->
  PROMPT_TEMPLATES !! prompt_type data = Some template ->
  format template (latest_prompt data) = inr formatted ->
  SYSTEM_PROMPTS !! prompt_type data = Some system_prompt ->
  let kwargs :=
    enhancement_kwargs formatted system_prompt (prompt_type data) in
  exists outcome,
    enhancement_calls (log data ambient next) = [(false, kwargs)] /\
    NonStreamCall kwargs outcome ∈ log data ambient next /\
    generation_calls (log data ambient next)
      = match enhancement_result outcome with
        | inr final_prompt =>
            [(stream data, generation_kwargs final_prompt (history data))]
        | inl _ => []
        end.
Proof.
  intros Hhist Htpl Hfmt Hsys kwargs. subst kwargs.
  destruct data as [pt msg hist st lp]. simpl in *. subst hist.
  unfold_request. rewrite Htpl; simpl. rewrite Hfmt; simpl.
  rewrite Hsys; simpl.
  match goal with |- context [generate_response_non_stream ?l ?k] =>
    destruct (generate_response_non_stream l k) as [e|c] eqn:Henh;
    [exists (inl e) | exists (inr c)] end; simpl.
  - destruct st; simpl; (split; [reflexivity|]); (split; [|reflexivity]);
      find_event.
  - destruct (final_prompt_of c) as [e|final_prompt] eqn:Hfp; simpl.
    + destruct st; simpl; (split; [reflexivity|]); (split; [|reflexivity]);
        find_event.
    + destruct st; simpl.
      * generator_outcome. read_log.
        split; [reflexivity|]. split; [|reflexivity].
        find_event.
      * next_outcome; (split; [reflexivity|]); (split; [|reflexivity]);
          find_event.
Qed.


(** C5, as amended: when every chunk the streaming adapter produces has a
    first choice, whether the sequence then ends or raises, the chunks the
    generator yields are the contents that are present, in the adapter's
    order; a chunk whose content is absent yields nothing and the loop goes
    on to the next one. *)
Theorem streaming_preserves_order g w :
  let produced :=
    generate_response_stream (events w)
      (generation_kwargs (gen_final_prompt g) (gen_history g)) in
  Forall has_choice (fragments produced) ->
  yields (drop (length (events w)) (events (snd (run_generator g w))))
    = omap present_content (fragments produced).
Proof.
  intros produced Hwf.
  destruct (stream_generator_run g w) as (tr & Hlog & _ & Hy).
  rewrite Hlog, drop_app_length.
  destruct (Hy Hwf) as [Hyields _]. exact Hyields.
Qed.


(** C7: when the streaming adapter raises after some of its chunks, the
    request is on the streaming path and its response is not the 500
    envelope: it is the 200 event stream carrying the present contents of
    the chunks that came before the exception, and ending with that
    exception; the streaming adapter was called once and nothing was called
    after it. *)
Theorem stream_failure_is_terminal data ambient next kwargs produced e :
  StreamCall kwargs produced ∈ log data ambient next ->
  failure produced = Some e ->
  Forall has_choice (fragments produced) ->
  stream data = true /\
  response data ambient next
    = EventStream 200 "text/event-stream"
        (omap present_content (fragments produced)) (Some e) /\
  List.filter fst (adapter_calls (log data ambient next)) = [(true, kwargs)] /\
  last (adapter_calls (log data ambient next)) = Some (true, kwargs).
Proof.
  intros Hin Hfail Hwf.
  request_paths data; try (in_log Hin; fail).
  all: in_log Hin; injection Hin as -> ->.
  all: match goal with H : Forall _ _ -> _ |- _ =>
         destruct (H Hwf) as [Hy Hr] end.
  all: change (yields (StreamCall ?k ?p :: ?t)) with (yields t).
  all: rewrite Hy, Hr, Hfail; read_log; repeat split.
Qed.


(** C8, as amended: every request opens a root span named [processors]
    first.  When the template resolves and formats it opens a span named
    [step-1-enhance_prompt], and when that step gives a final prompt (the
    history is not empty, or the enhancement call returned an object with a
    [final_prompt]) a span named [step-2-generate_response].  Each of the two
    carries one link, to the context of the root span, and is started while
    the root span is current, which makes the root its parent as well.  No
    other span is opened. *)
Theorem stage_spans_link_to_root data ambient next :
  let root := root_span ambient next in
  let step1 := stage_span "step-1-enhance_prompt" (S next) root in
  let step2 := stage_span "step-2-generate_response" (S (S next)) root in
  (spans (log data ambient next) = [root] \/
   spans (log data ambient next) = [root; step1] \/
   spans (log data ambient next) = [root; step1; step2]) /\
  (forall template formatted,
     PROMPT_TEMPLATES !! prompt_type data = Some template ->
     format template (latest_prompt data) = inr formatted ->
     step1 ∈ spans (log data ambient next) /\
     (history data <> [] -> step2 ∈ spans (log data ambient next))) /\
  (forall kwargs c final_prompt,
     NonStreamCall kwargs (inr c) ∈ log data ambient next ->
     arg_model kwargs = "gpt-4o-mini" ->
     final_prompt_of c = inr final_prompt ->
     step2 ∈ spans (log data ambient next)).
Proof.
  intros root step1 step2. subst root step1 step2.
  unfold root_span, stage_span. simpl.
  request_paths data; read_log.
  all: split; [auto|].
  all: split;
    [ intros template formatted Htpl' Hfmt'; simplify_eq;
      try congruence;
      (split; [find_event | intros Hne; first [find_event | congruence]])
    | intros kwargs' c' final_prompt' Hin Hmodel Hfp; in_log Hin;
      try (injection Hin as -> ->);
      first [find_event | congruence | discriminate Hmodel] ].
Qed.

(** *** More of the handler and of the generator *)

Local Abbreviation after_handler :=
  (handler_world repr PROMPT_TEMPLATES SYSTEM_PROMPTS format
     generate_response_non_stream).

Lemma loop_has_no_span_event tr :
  forallb stream_event tr = true -> span_events tr = [].
Proof.
  apply omap_stream_events. intros [] ?; try discriminate; reflexivity.
Qed.

Lemma loop_has_no_error_line tr :
  forallb stream_event tr = true -> error_lines tr = [].
Proof.
  apply omap_stream_events. intros [] ?; try discriminate; reflexivity.
Qed.


(** X2: a request that fails writes exactly one error line, and the line
    and the detail of the 500 envelope carry the same text of the same
    exception; a request answered with 200 writes no error line, also when
    its stream ends with an exception. *)
Theorem failure_is_logged_once data ambient next :
  (exists cause,
     error_lines (log data ambient next)
       = ["Error in conversation endpoint: " +:+ str cause] /\
     response data ambient next
       = JSONResponse 500
           {[ "detail" := JString ("An Error occurred: " +:+ str cause) ]}) \/
  (error_lines (log data ambient next) = [] /\
   status_of (response data ambient next) = 200%Z).
Proof.
  request_paths data.
  all: try (left; eexists; split; reflexivity).
  all: try (left; exists (KeyError pt); split; reflexivity).
  all: right; split; try reflexivity.
  all: unfold error_lines; simpl; unfold omap;
    match goal with H : forallb stream_event ?tr = true |- _ =>
      pose proof (loop_has_no_error_line tr H) as Hnone end;
    unfold error_lines, omap in Hnone; rewrite Hnone; reflexivity.
Qed.

(** X3: the spans of a request are well bracketed on every path, also when
    a stage raises: each span that is started is ended, the span of step 1
    is ended before the span of step 2 is started, and the root span is
    ended last. *)
Theorem spans_are_closed_in_order data ambient next :
  span_events (log data ambient next)
    = [(true, next); (false, next)] \/
  span_events (log data ambient next)
    = [(true, next); (true, S next); (false, S next); (false, next)] \/
  span_events (log data ambient next)
    = [(true, next); (true, S next); (false, S next);
       (true, S (S next)); (false, S (S next)); (false, next)].
Proof.
  request_paths data.
  all: try (left; reflexivity).
  all: try (right; left; reflexivity).
  all: try (right; right; reflexivity).
  all: right; right; unfold span_events; simpl; unfold omap;
    match goal with H : forallb stream_event ?tr = true |- _ =>
      pose proof (loop_has_no_span_event tr H) as Hnone end;
    unfold span_events, omap in Hnone; rewrite Hnone; reflexivity.
Qed.

(** Uses, in the goal, that the generator's loop has nothing of a reading
    of the log. *)
Ltac forget_loop lem :=
  match goal with
  | H : forallb stream_event ?tr = true |- _ =>
      let Hnone := fresh "Hnone" in
      pose proof (lem tr H) as Hnone;
      unfold span_events, error_lines, omap in Hnone |- *;
      simpl; rewrite ?Hnone; clear Hnone
  end.

(** Checks a split of the adapter calls into enhancement and generation. *)
Ltac split_calls :=
  split; [reflexivity|];
  split;
  [ first [ left; reflexivity
          | right; eexists _, _; split; [reflexivity|];
            split; [first [eassumption | reflexivity] | reflexivity] ]
  | first [ left; reflexivity | right; eexists; reflexivity ] ].

(** X5: a request makes at most two adapter calls: at most one for the
    enhancement, only on an empty history and with the system prompt of the
    prompt type, and after it at most one for the generation, through the
    streaming function exactly when [stream] is set, always with the history
    of the request and without a system prompt. *)
Theorem adapter_calls_are_ordered data ambient next :
  exists enh gen,
    adapter_calls (log data ambient next) = enh ++ gen /\
    (enh = [] \/
     exists formatted system_prompt,
       history data = [] /\
       SYSTEM_PROMPTS !! prompt_type data = Some system_prompt /\
       enh = [(false, enhancement_kwargs formatted system_prompt
                        (prompt_type data))]) /\
    (gen = [] \/
     exists final_prompt,
       gen = [(stream data, generation_kwargs final_prompt (history data))]).
Proof.
  request_paths data; read_log.
  all: first
    [ exists [], []; split_calls
    | eexists [_], []; split_calls
    | eexists [], [_]; split_calls
    | eexists [_], [_]; split_calls ].
Qed.

(** X6: the handler is done before anything is streamed.  The log of a
    request is the log of the handler followed by the events of the
    transport; the handler itself never calls the streaming adapter and
    sends no chunk, its log ends with the two metrics and the end of the root
    span, and what follows has no metric and no span event and is empty when
    [stream] is false. *)
Theorem handler_returns_before_streaming data ambient next :
  exists rest,
    log data ambient next = events (after_handler data ambient next) ++ rest /\
    List.filter streaming_event (events (after_handler data ambient next))
      = [] /\
    (exists before,
       events (after_handler data ambient next)
         = before ++ [CounterAdd 1 route_label; HistogramRecord 0 route_label;
                      SpanEnd next]) /\
    counter_adds rest = [] /\ histogram_records rest = [] /\
    span_events rest = [] /\
    (rest = [] \/ stream data = true).
Proof.
  unfold handler_world.
  request_paths data.
  all: eexists; split; [reflexivity|].
  all: split; [reflexivity|].
  all: split;
    [ match goal with |- exists before, ?L = _ =>
        exists (take (length L - 3) L); reflexivity end |].
  all: try (repeat split; first [reflexivity | left; reflexivity]).
  all: read_log; repeat split; try reflexivity;
    [ forget_loop loop_has_no_span_event; reflexivity | right; reflexivity ].
Qed.

Lemma info_lines_app l1 l2 :
  info_lines (l1 ++ l2) = info_lines l1 ++ info_lines l2.
Proof. unfold info_lines. apply omap_app. Qed.

(** The log lines of the loop: one for each chunk, the last with the
    number of chunks sent. *)
Lemma stream_loop_info_lines items : forall n ending w,
  Forall has_choice items ->
  exists lines,
    info_lines (events (snd (stream_loop n items ending w)))
      = info_lines (events w) ++ lines /\
    length lines = length items /\
    last lines
      = match items with
        | [] => None
        | _ :: _ =>
            Some (streamed_line (n + length (omap present_content items)))
        end.
Proof.
  induction items as [|chunk rest IH]; intros n ending w Hwf.
  - exists []. destruct ending; simpl; rewrite app_nil_r; auto.
  - inversion Hwf as [|? ? Hc Hrest]; subst.
    cbn [stream_loop]. unfold bind, lift at 1.
    assert (exists choice others, choices chunk = choice :: others)
      as (choice & others & Hch).
    { destruct (choices chunk) as [|choice others] eqn:Hch;
        [exfalso; apply Hc; exact Hch | eauto]. }
    assert (present_content chunk = content (delta choice)) as Hpresent.
    { unfold present_content, first_delta_content. rewrite Hch.
      destruct (content (delta choice)); reflexivity. }
    unfold first_delta_content at 1. rewrite Hch.
    simpl omap. rewrite Hpresent.
    destruct (content (delta choice)) as [text|]; simpl.
    + match goal with |- context [stream_loop ?k rest ending ?w1] =>
        destruct (IH k ending w1 Hrest) as (lines & Hlines & Hlen & Hlast) end.
      exists (streamed_line (S n) :: lines).
      rewrite Hlines. simpl. rewrite !info_lines_app. simpl.
      rewrite app_nil_r, <- app_assoc. split; [reflexivity|].
      split; [simpl; lia|].
      destruct rest as [|c r]; destruct lines as [|l ls];
        try discriminate Hlen; simpl in *.
      * replace (n + 1) with (S n) by lia. reflexivity.
      * rewrite Hlast. do 2 f_equal. lia.
    + match goal with |- context [stream_loop ?k rest ending ?w1] =>
        destruct (IH k ending w1 Hrest) as (lines & Hlines & Hlen & Hlast) end.
      exists (streamed_line n :: lines).
      rewrite Hlines. simpl. rewrite !info_lines_app. simpl.
      rewrite <- app_assoc. split; [reflexivity|].
      split; [simpl; lia|].
      destruct rest as [|c r]; destruct lines as [|l ls];
        try discriminate Hlen; simpl in *.
      * replace (n + 0) with n by lia. reflexivity.
      * rewrite Hlast. reflexivity.
Qed.

(** X7: when the streaming adapter produces at least one chunk, all with a
    first choice, the generator logs one [Streamed k chunks.] line for each
    chunk of the adapter, whether its content is present or not, and the
    last line gives the number of chunks it has sent. *)
Theorem generator_counts_its_chunks g w :
  let produced :=
    generate_response_stream (events w)
      (generation_kwargs (gen_final_prompt g) (gen_history g)) in
  let new := drop (length (events w)) (events (snd (run_generator g w))) in
  Forall has_choice (fragments produced) ->
  fragments produced <> [] ->
  length (info_lines new) = length (fragments produced) /\
  last (info_lines new) = Some (streamed_line (length (yields new))).
Proof.
  intros produced new Hwf Hne. subst new produced.
  destruct (stream_generator_run g w) as (tr & Hlog & _ & Hy).
  destruct (Hy Hwf) as [Hyields _].
  rewrite Hlog, drop_app_length.
  change (yields (StreamCall ?k ?p :: tr)) with (yields tr).
  change (info_lines (StreamCall ?k ?p :: tr)) with (info_lines tr).
  rewrite Hyields.
  unfold stream_generator, bind, open_stream in Hlog. simpl in Hlog.
  unfold generation_kwargs in *.
  match type of Hlog with context [stream_loop ?k ?i ?e ?w1] =>
    destruct (stream_loop_info_lines i k e w1 Hwf)
      as (lines & Hlines & Hlen & Hlast) end.
  rewrite Hlog in Hlines. simpl in Hlines.
  rewrite !info_lines_app in Hlines. simpl in Hlines.
  rewrite app_nil_r in Hlines.
  change (info_lines (StreamCall ?k ?p :: tr)) with (info_lines tr) in Hlines.
  apply app_inv_head in Hlines. rewrite Hlines.
  split; [exact Hlen|].
  rewrite Hlast.
  match goal with |- context [match ?l with [] => _ | _ :: _ => _ end] =>
    destruct l eqn:Hfr end;
    [exfalso; apply Hne; reflexivity | reflexivity].
Qed.

(** The loop up to a chunk without a choice. *)
Lemma stream_loop_stops_at_no_choice good : forall bad rest n ending w,
  Forall has_choice good ->
  choices bad = [] ->
  yields (events (snd (stream_loop n (good ++ bad :: rest) ending w)))
    = yields (events w) ++ omap present_content good /\
  fst (stream_loop n (good ++ bad :: rest) ending w)
    = inl (IndexError "list index out of range").
Proof.
  induction good as [|chunk good IH]; intros bad rest n ending w Hwf Hbad.
  - simpl. unfold bind, lift at 1, first_delta_content. rewrite Hbad.
    simpl. rewrite app_nil_r. auto.
  - inversion Hwf as [|? ? Hc Hgood]; subst.
    simpl. unfold bind, lift at 1, lift at 1, present_content,
      first_delta_content.
    destruct (choices chunk) as [|choice others] eqn:Hch.
    { exfalso. apply Hc. exact Hch. }
    destruct (content (delta choice)) as [text|]; simpl.
    + match goal with |- context [stream_loop ?k _ ending ?w1] =>
        destruct (IH bad rest k ending w1 Hgood Hbad) as [Hy Hr] end.
      rewrite Hy, Hr. simpl. rewrite !yields_app. simpl.
      rewrite app_nil_r, <- app_assoc. auto.
    + match goal with |- context [stream_loop ?k _ ending ?w1] =>
        destruct (IH bad rest k ending w1 Hgood Hbad) as [Hy Hr] end.
      rewrite Hy, Hr. simpl. rewrite !yields_app. simpl.
      rewrite app_nil_r. auto.
Qed.

(** X8: a chunk of the adapter with an empty list of choices stops the
    stream with an [IndexError]: the present contents of the chunks before
    it have been sent, nothing of what the adapter produces after it is
    sent, and the way the adapter's own sequence ends is never seen. *)
Theorem chunk_without_choice_ends_stream good bad rest n ending w :
  Forall has_choice good ->
  choices bad = [] ->
  yields (drop (length (events w))
            (events (snd (stream_loop n (good ++ bad :: rest) ending w))))
    = omap present_content good /\
  fst (stream_loop n (good ++ bad :: rest) ending w)
    = inl (IndexError "list index out of range").
Proof.
  intros Hwf Hbad.
  destruct (stream_loop_stops_at_no_choice good bad rest n ending w Hwf Hbad)
    as [Hy Hr].
  split; [|exact Hr].
  destruct (stream_loop_log (good ++ bad :: rest) n ending w)
    as (tr & Hlog & _).
  rewrite Hlog in Hy |- *. rewrite drop_app_length.
  rewrite yields_app in Hy. apply app_inv_head in Hy. exact Hy.
Qed.

(** X9: on a first turn (empty history) the [message] of the request is
    not used: a request that differs only in its [message] gets the same
    response and leaves the same log. *)
Theorem first_turn_ignores_message data m w :
  history data = [] ->
  conversation_request repr PROMPT_TEMPLATES SYSTEM_PROMPTS format
    generate_response_non_stream generate_response_stream
    (with_message m data) w
  = conversation_request repr PROMPT_TEMPLATES SYSTEM_PROMPTS format
      generate_response_non_stream generate_response_stream data w.
Proof.
  intros Hhist. destruct data as [pt msg hist st lp].
  simpl in Hhist. subst hist. reflexivity.
Qed.

(** X10: on a later turn (non-empty history) the dictionary of system
    prompts is not consulted: with any other dictionary in its place the
    request gets the same response and leaves the same log, so a prompt type
    without a system prompt does not fail a later turn. *)
Theorem later_turn_ignores_system_prompts other data w :
  history data <> [] ->
  conversation_request repr PROMPT_TEMPLATES other format
    generate_response_non_stream generate_response_stream data w
  = conversation_request repr PROMPT_TEMPLATES SYSTEM_PROMPTS format
      generate_response_non_stream generate_response_stream data w.
Proof.
  intros Hhist. destruct data as [pt msg hist st lp].
  destruct hist as [|turn hist]; [contradiction|]. reflexivity.
Qed.

(** X11: on a request with [stream] set, a failed call of the single-shot
    adapter (the enhancement) is answered with the 500 envelope carrying the
    text of the error, not with an event stream, and the streaming adapter is
    not called. *)
Theorem streaming_request_fails_before_stream data ambient next kwargs e :
  stream data = true ->
  NonStreamCall kwargs (inl e) ∈ log data ambient next ->
  response data ambient next
    = JSONResponse 500
        {[ "detail" := JString ("An Error occurred: " +:+ str e) ]} /\
  adapter_calls (log data ambient next) = [(false, kwargs)].
Proof.
  intros Hst Hin.
  request_paths data; try discriminate Hst.
  all: in_log Hin; injection Hin as -> ->.
  all: split; reflexivity.
Qed.

(** X12: when the enhancement call returns a result that has no
    [final_prompt], the request fails with the 500 envelope carrying the
    text of the attribute error, and no generation call is made. *)
Theorem enhancement_without_final_prompt data ambient next kwargs c e :
  NonStreamCall kwargs (inr c) ∈ log data ambient next ->
  arg_model kwargs = "gpt-4o-mini" ->
  final_prompt_of c = inl e ->
  response data ambient next
    = JSONResponse 500
        {[ "detail" := JString ("An Error occurred: " +:+ str e) ]} /\
  generation_calls (log data ambient next) = [].
Proof.
  intros Hin Hmodel Hfp.
  request_paths data.
  all: in_log Hin; injection Hin as -> ->.
  all: try discriminate Hmodel.
  all: try congruence.
  all: split; [|reflexivity]; repeat f_equal; congruence.
Qed.

(** X13: on a first turn whose prompt type has a template that formats
    but no system prompt, the span of step 1 is opened, no adapter call is
    made, and the request fails with the 500 envelope carrying the text of
    the [KeyError]. *)
Theorem missing_system_prompt_fails_first_turn data ambient next
    template formatted :
  history data = [] ->
  PROMPT_TEMPLATES !! prompt_type data = Some template ->
  format template (latest_prompt data) = inr formatted ->
  SYSTEM_PROMPTS !! prompt_type data = None ->
  span_name <$> spans (log data ambient next)
    = ["processors"; "step-1-enhance_prompt"] /\
  adapter_calls (log data ambient next) = [] /\
  response data ambient next
    = JSONResponse 500
        {[ "detail" := JString ("An Error occurred: "
                                +:+ repr (prompt_type data)) ]}.
Proof.
  intros Hhist Htpl Hfmt Hsys.
  destruct data as [pt msg hist st lp]. simpl in *. subst hist.
  unfold_request. rewrite Htpl; simpl. rewrite Hfmt; simpl.
  rewrite Hsys; simpl. repeat split.
Qed.

(** Checks a place of an adapter call in the log, with its line before. *)
Ltac logged_before :=
  split; [reflexivity|]; split; [reflexivity|];
  unfold prompt_line; simpl; find_event.

(** X14: every prompt that goes to the adapter has been written to the
    log before: an enhancement call comes after the [Enhancing prompt] line
    with its prompt, a generation call after the [Generating response] line
    with its prompt. *)
Theorem prompts_are_logged data ambient next call :
  call ∈ adapter_calls (log data ambient next) ->
  exists before ev after,
    log data ambient next = before ++ ev :: after /\
    adapter_call_of ev = Some call /\
    LoggerInfo (prompt_line call) ∈ before.
Proof.
  intros Hin.
  request_paths data; read_log.
  all: try match goal with Hloop : forallb stream_event ?tr = true |- _ =>
         let Hc := fresh "Hc" in
         pose proof (loop_has_no_call tr Hloop) as Hc;
         unfold adapter_calls, omap in Hc; rewrite Hc in Hin; clear Hc
       end.
  all: in_log Hin; subst call.
  all: match goal with |- exists before ev after, ?L = _ /\ _ =>
         first
           [ eexists (take 3 L), _, _; logged_before
           | eexists (take 5 L), _, _; logged_before
           | eexists (take 7 L), _, _; logged_before
           | eexists (take 9 L), _, _; logged_before
           | eexists (take 11 L), _, _; logged_before ]
       end.
Qed.

End Properties.

(** ** Concrete runs *)

(** A first turn, buffered, with collaborators that answer. *)
Example first_turn_response :
  Stub.response Stub.non_stream_ok Stub.stream_ok Stub.first_turn [] 0
    = JSONResponse 200
        {[ "response" := JString "answer to: Write a vivid poem." ]}.
Proof. vm_compute. reflexivity. Qed.

(** A later turn, streamed, on an adapter that breaks after three chunks. *)
Example later_turn_response :
  Stub.response Stub.non_stream_ok Stub.stream_breaks Stub.later_turn [] 0
    = EventStream 200 "text/event-stream" ["Hel"; "lo"]
        (Some (RaisedError "APIError" "connection reset")).
Proof. vm_compute. reflexivity. Qed.

(** A chunk without a choice stops the generator with an [IndexError]. *)
Example chunk_without_choice :
  fst (stream_loop 0 [ {| choices := [] |}; Stub.chunk_of (Some "lost") ]
         None (request_world [] 0))
    = inl (IndexError "list index out of range").
Proof. reflexivity. Qed.

(** C1, the claim as stated fails: the history is empty, the prompt type is
    not in the catalog, and the enhancement is not called at all. *)
Lemma enhancement_not_called_on_unknown_key :
  history Stub.unknown_key = [] /\
  length (enhancement_calls
            (Stub.log Stub.non_stream_ok Stub.stream_ok Stub.unknown_key [] 0))
    <> 1.
Proof. split; [reflexivity | vm_compute; discriminate]. Qed.

Lemma first_turn_enhances_once_witness :
  exists outcome,
    enhancement_calls
      (Stub.log Stub.non_stream_ok Stub.stream_ok Stub.first_turn [] 0)
      = [(false, enhancement_kwargs "Be creative: write a poem"
                   "You are a poet." "creative")] /\
    NonStreamCall
      (enhancement_kwargs "Be creative: write a poem" "You are a poet."
         "creative") outcome
      ∈ Stub.log Stub.non_stream_ok Stub.stream_ok Stub.first_turn [] 0 /\
    generation_calls
      (Stub.log Stub.non_stream_ok Stub.stream_ok Stub.first_turn [] 0)
      = match enhancement_result outcome with
        | inr final_prompt => [(false, generation_kwargs final_prompt [])]
        | inl _ => []
        end.
Proof.
  apply (first_turn_enhances_once Stub.repr Stub.PROMPT_TEMPLATES
           Stub.SYSTEM_PROMPTS Stub.format Stub.non_stream_ok Stub.stream_ok
           Stub.first_turn [] 0 "Be creative: {prompt}"
           "Be creative: write a poem" "You are a poet.");
    reflexivity.
Defined.

Lemma later_turn_skips_enhancement_witness :
  enhancement_calls
    (Stub.log Stub.non_stream_ok Stub.stream_ok Stub.later_turn [] 0) = [] /\
  adapter_calls
    (Stub.log Stub.non_stream_ok Stub.stream_ok Stub.later_turn [] 0)
    = [(true, generation_kwargs "tell me more"
                [ {| turn_role := "user"; turn_content := "hi" |} ])].
Proof.
  destruct (later_turn_skips_enhancement Stub.repr Stub.PROMPT_TEMPLATES
              Stub.SYSTEM_PROMPTS Stub.format Stub.non_stream_ok
              Stub.stream_ok Stub.later_turn [] 0)
    as (Hnone & _ & Hcalls).
  - simpl. discriminate.
  - split; [exact Hnone|].
    apply (Hcalls "Be creative: {prompt}" "Be creative: "); reflexivity.
Defined.

(** C4, the claim as stated fails: the prompt type is not in the catalog
    and the status of the response is 500, not a 4xx. *)
Lemma unknown_key_is_not_a_client_error :
  Stub.PROMPT_TEMPLATES !! prompt_type Stub.unknown_key = None /\
  Stub.response Stub.non_stream_ok Stub.stream_ok Stub.unknown_key [] 0
    = JSONResponse 500
        {[ "detail" := JString "An Error occurred: 'unknown_key'" ]} /\
  ~ client_error
      (Stub.response Stub.non_stream_ok Stub.stream_ok Stub.unknown_key [] 0).
Proof.
  split; [reflexivity|].
  assert (Stub.response Stub.non_stream_ok Stub.stream_ok Stub.unknown_key [] 0
          = JSONResponse 500
              {[ "detail" := JString "An Error occurred: 'unknown_key'" ]})
    as Hresp by (vm_compute; reflexivity).
  split; [exact Hresp|].
  rewrite Hresp. unfold client_error. simpl. lia.
Qed.

Lemma unknown_prompt_type_fails_500_witness :
  adapter_calls
    (Stub.log Stub.non_stream_ok Stub.stream_ok Stub.unknown_key [] 0) = [] /\
  Stub.response Stub.non_stream_ok Stub.stream_ok Stub.unknown_key [] 0
    = JSONResponse 500
        {[ "detail" := JString ("An Error occurred: "
                                +:+ Stub.repr "unknown_key") ]}.
Proof.
  apply (unknown_prompt_type_fails_500 Stub.repr Stub.PROMPT_TEMPLATES
           Stub.SYSTEM_PROMPTS Stub.format Stub.non_stream_ok Stub.stream_ok
           Stub.unknown_key [] 0).
  reflexivity.
Defined.

(** C5, the claim as stated fails: the adapter produces a chunk with
    content, a chunk with an empty list of choices and a chunk with content;
    the contents that are present are those of the first and of the third,
    but only the first is sent, and the stream ends with an [IndexError]. *)
Lemma chunk_without_choice_drops_later_content :
  omap present_content
    (fragments (Edge.stream_with_gap [] (generation_kwargs "tell me more" [])))
    = ["a"; "b"] /\
  yields
    (drop 0
       (events
          (snd (stream_generator Edge.stream_with_gap
                  {| gen_final_prompt := "tell me more"; gen_history := [] |}
                  (request_world [] 0)))))
    = ["a"] /\
  fst (stream_generator Edge.stream_with_gap
         {| gen_final_prompt := "tell me more"; gen_history := [] |}
         (request_world [] 0))
    = inl (IndexError "list index out of range") /\
  yields
    (drop 0
       (events
          (snd (stream_generator Edge.stream_with_gap
                  {| gen_final_prompt := "tell me more"; gen_history := [] |}
                  (request_world [] 0)))))
    <> omap present_content
         (fragments
            (Edge.stream_with_gap [] (generation_kwargs "tell me more" []))).
Proof.
  repeat split; try reflexivity.
  vm_compute. discriminate.
Qed.

Lemma streaming_preserves_order_witness :
  yields
    (drop 0
       (events
          (snd (stream_generator Stub.stream_breaks
                  {| gen_final_prompt := "tell me more"; gen_history := [] |}
                  (request_world [] 0)))))
    = ["Hel"; "lo"].
Proof.
  apply (streaming_preserves_order Stub.stream_breaks
           {| gen_final_prompt := "tell me more"; gen_history := [] |}
           (request_world [] 0)).
  simpl. repeat constructor; discriminate.
Defined.


Lemma stream_failure_is_terminal_witness :
  stream Stub.later_turn = true /\
  Stub.response Stub.non_stream_ok Stub.stream_breaks Stub.later_turn [] 0
    = EventStream 200 "text/event-stream" ["Hel"; "lo"]
        (Some (RaisedError "APIError" "connection reset")) /\
  List.filter fst
    (adapter_calls
       (Stub.log Stub.non_stream_ok Stub.stream_breaks Stub.later_turn [] 0))
    = [(true, generation_kwargs "tell me more"
                [ {| turn_role := "user"; turn_content := "hi" |} ])] /\
  last
    (adapter_calls
       (Stub.log Stub.non_stream_ok Stub.stream_breaks Stub.later_turn [] 0))
    = Some (true, generation_kwargs "tell me more"
                    [ {| turn_role := "user"; turn_content := "hi" |} ]).
Proof.
  apply (stream_failure_is_terminal Stub.repr Stub.PROMPT_TEMPLATES
           Stub.SYSTEM_PROMPTS Stub.format Stub.non_stream_ok
           Stub.stream_breaks Stub.later_turn [] 0
           (generation_kwargs "tell me more"
              [ {| turn_role := "user"; turn_content := "hi" |} ])
           (Stub.stream_breaks [] (generation_kwargs "" []))
           (RaisedError "APIError" "connection reset")).
  - vm_compute. find_event.
  - reflexivity.
  - simpl. repeat constructor; discriminate.
Defined.

(** C8, the claim as stated fails: on a first turn that succeeds the three
    spans are opened, none is named [step-1-enhance-prompt] or
    [step-2-generate-response], and the parent of both stage spans is the
    root span. *)
Lemma stage_spans_have_other_names :
  spans (Stub.log Stub.non_stream_ok Stub.stream_ok Stub.first_turn [] 0)
    = [ root_span [] 0;
        stage_span "step-1-enhance_prompt" 1 (root_span [] 0);
        stage_span "step-2-generate_response" 2 (root_span [] 0) ] /\
  span_parent
    <$> spans (Stub.log Stub.non_stream_ok Stub.stream_ok Stub.first_turn [] 0)
    = [None; Some 0; Some 0] /\
  ~ (exists s,
       s ∈ spans (Stub.log Stub.non_stream_ok Stub.stream_ok
                    Stub.first_turn [] 0) /\
       (span_name s = "step-1-enhance-prompt" \/
        span_name s = "step-2-generate-response")).
Proof.
  assert (spans (Stub.log Stub.non_stream_ok Stub.stream_ok
                   Stub.first_turn [] 0)
          = [ root_span [] 0;
              stage_span "step-1-enhance_prompt" 1 (root_span [] 0);
              stage_span "step-2-generate_response" 2 (root_span [] 0) ])
    as Hspans by (vm_compute; reflexivity).
  rewrite Hspans. split; [reflexivity|]. split; [reflexivity|].
  intros (s & Hin & Hname).
  repeat (apply elem_of_cons in Hin as [->|Hin]);
    [ | | | apply elem_of_nil in Hin; contradiction ];
    destruct Hname as [Hname|Hname]; discriminate Hname.
Qed.

Lemma stage_spans_link_to_root_witness :
  stage_span "step-1-enhance_prompt" 1 (root_span [] 0)
    ∈ spans (Stub.log Stub.non_stream_ok Stub.stream_ok Stub.later_turn [] 0)
  /\
  stage_span "step-2-generate_response" 2 (root_span [] 0)
    ∈ spans (Stub.log Stub.non_stream_ok Stub.stream_ok Stub.later_turn [] 0)
  /\
  stage_span "step-2-generate_response" 2 (root_span [] 0)
    ∈ spans (Stub.log Stub.non_stream_ok Stub.stream_ok Stub.first_turn [] 0).
Proof.
  destruct (stage_spans_link_to_root Stub.repr Stub.PROMPT_TEMPLATES
              Stub.SYSTEM_PROMPTS Stub.format Stub.non_stream_ok
              Stub.stream_ok Stub.later_turn [] 0) as (_ & Hlater & _).
  destruct (Hlater "Be creative: {prompt}" "Be creative: " eq_refl eq_refl)
    as [Hstep1 Hstep2].
  split; [exact Hstep1|]. split; [apply Hstep2; simpl; discriminate|].
  destruct (stage_spans_link_to_root Stub.repr Stub.PROMPT_TEMPLATES
              Stub.SYSTEM_PROMPTS Stub.format Stub.non_stream_ok
              Stub.stream_ok Stub.first_turn [] 0) as (_ & _ & Hfirst).
  apply (Hfirst (enhancement_kwargs "Be creative: write a poem"
                   "You are a poet." "creative")
                Stub.enhanced "Write a vivid poem.").
  - vm_compute. find_event.
  - reflexivity.
  - reflexivity.
Defined.

Lemma template_evaluated_before_stages_witness :
  span_name
    <$> spans (Stub.log Stub.non_stream_ok Stub.stream_ok
                 Stub.later_turn_unknown_key [] 0)
    = ["processors"] /\
  adapter_calls (Stub.log Stub.non_stream_ok Stub.stream_ok
                   Stub.later_turn_unknown_key [] 0) = [] /\
  exists e,
    Stub.response Stub.non_stream_ok Stub.stream_ok
      Stub.later_turn_unknown_key [] 0
      = JSONResponse 500
          {[ "detail" := JString ("An Error occurred: "
                                  +:+ str Stub.repr e) ]}.
Proof.
  apply (template_evaluated_before_stages Stub.repr Stub.PROMPT_TEMPLATES
           Stub.SYSTEM_PROMPTS Stub.format Stub.non_stream_ok Stub.stream_ok
           Stub.later_turn_unknown_key [] 0).
  left. reflexivity.
Defined.

(** ** More concrete runs *)

Lemma generator_counts_its_chunks_witness :
  length
    (info_lines
       (drop 0
          (events
             (snd (stream_generator Stub.stream_breaks
                     {| gen_final_prompt := "tell me more";
                        gen_history := [] |}
                     (request_world [] 0))))))
    = 3 /\
  last
    (info_lines
       (drop 0
          (events
             (snd (stream_generator Stub.stream_breaks
                     {| gen_final_prompt := "tell me more";
                        gen_history := [] |}
                     (request_world [] 0))))))
    = Some (streamed_line 2).
Proof.
  apply (generator_counts_its_chunks Stub.stream_breaks
           {| gen_final_prompt := "tell me more"; gen_history := [] |}
           (request_world [] 0)).
  - simpl. repeat constructor; discriminate.
  - simpl. discriminate.
Defined.

Lemma chunk_without_choice_ends_stream_witness :
  yields
    (drop 0
       (events
          (snd (stream_loop 0
                  ([Stub.chunk_of (Some "Hel")]
                   ++ Edge.no_choice :: [Stub.chunk_of (Some "lost")])
                  None (request_world [] 0)))))
    = ["Hel"] /\
  fst (stream_loop 0
         ([Stub.chunk_of (Some "Hel")]
          ++ Edge.no_choice :: [Stub.chunk_of (Some "lost")])
         None (request_world [] 0))
    = inl (IndexError "list index out of range").
Proof.
  apply (chunk_without_choice_ends_stream [Stub.chunk_of (Some "Hel")]
           Edge.no_choice [Stub.chunk_of (Some "lost")] 0 None
           (request_world [] 0)).
  - repeat constructor. discriminate.
  - reflexivity.
Defined.

Lemma first_turn_ignores_message_witness :
  conversation_request Stub.repr Stub.PROMPT_TEMPLATES Stub.SYSTEM_PROMPTS
    Stub.format Stub.non_stream_ok Stub.stream_ok
    (with_message "something else" Stub.first_turn) (request_world [] 0)
  = conversation_request Stub.repr Stub.PROMPT_TEMPLATES Stub.SYSTEM_PROMPTS
      Stub.format Stub.non_stream_ok Stub.stream_ok
      Stub.first_turn (request_world [] 0).
Proof.
  apply (first_turn_ignores_message Stub.repr Stub.PROMPT_TEMPLATES
           Stub.SYSTEM_PROMPTS Stub.format Stub.non_stream_ok Stub.stream_ok
           Stub.first_turn "something else" (request_world [] 0)).
  reflexivity.
Defined.

Lemma later_turn_ignores_system_prompts_witness :
  conversation_request Stub.repr Stub.PROMPT_TEMPLATES ∅
    Stub.format Stub.non_stream_ok Stub.stream_ok
    Stub.later_turn (request_world [] 0)
  = conversation_request Stub.repr Stub.PROMPT_TEMPLATES Stub.SYSTEM_PROMPTS
      Stub.format Stub.non_stream_ok Stub.stream_ok
      Stub.later_turn (request_world [] 0).
Proof.
  apply (later_turn_ignores_system_prompts Stub.repr Stub.PROMPT_TEMPLATES
           Stub.SYSTEM_PROMPTS Stub.format Stub.non_stream_ok Stub.stream_ok
           ∅ Stub.later_turn (request_world [] 0)).
  simpl. discriminate.
Defined.

Lemma streaming_request_fails_before_stream_witness :
  Stub.response Stub.non_stream_down Stub.stream_ok
    Edge.first_turn_streamed [] 0
    = JSONResponse 500
        {[ "detail" := JString ("An Error occurred: "
                                +:+ "upstream timed out") ]} /\
  adapter_calls
    (Stub.log Stub.non_stream_down Stub.stream_ok Edge.first_turn_streamed
       [] 0)
    = [(false, enhancement_kwargs "Be creative: write a poem"
                 "You are a poet." "creative")].
Proof.
  apply (streaming_request_fails_before_stream Stub.repr
           Stub.PROMPT_TEMPLATES Stub.SYSTEM_PROMPTS Stub.format
           Stub.non_stream_down Stub.stream_ok Edge.first_turn_streamed [] 0
           (enhancement_kwargs "Be creative: write a poem" "You are a poet."
              "creative")
           (RaisedError "Timeout" "upstream timed out")).
  - reflexivity.
  - vm_compute. find_event.
Defined.

Lemma enhancement_without_final_prompt_witness :
  Stub.response Edge.non_stream_plain Stub.stream_ok Stub.first_turn [] 0
    = JSONResponse 500
        {[ "detail" :=
             JString ("An Error occurred: "
                      +:+ "'str' object has no attribute 'final_prompt'") ]}
  /\
  generation_calls
    (Stub.log Edge.non_stream_plain Stub.stream_ok Stub.first_turn [] 0)
    = [].
Proof.
  apply (enhancement_without_final_prompt Stub.repr Stub.PROMPT_TEMPLATES
           Stub.SYSTEM_PROMPTS Stub.format Edge.non_stream_plain
           Stub.stream_ok Stub.first_turn [] 0
           (enhancement_kwargs "Be creative: write a poem" "You are a poet."
              "creative")
           (PlainText "answer to: Be creative: write a poem")
           (AttributeError "'str' object has no attribute 'final_prompt'")).
  - vm_compute. find_event.
  - reflexivity.
  - reflexivity.
Defined.

Lemma missing_system_prompt_fails_first_turn_witness :
  span_name
    <$> spans (log_of Stub.repr Stub.PROMPT_TEMPLATES ∅ Stub.format
                 Stub.non_stream_ok Stub.stream_ok Stub.first_turn [] 0)
    = ["processors"; "step-1-enhance_prompt"] /\
  adapter_calls (log_of Stub.repr Stub.PROMPT_TEMPLATES ∅ Stub.format
                   Stub.non_stream_ok Stub.stream_ok Stub.first_turn [] 0)
    = [] /\
  response_of Stub.repr Stub.PROMPT_TEMPLATES ∅ Stub.format
    Stub.non_stream_ok Stub.stream_ok Stub.first_turn [] 0
    = JSONResponse 500
        {[ "detail" := JString ("An Error occurred: "
                                +:+ Stub.repr "creative") ]}.
Proof.
  apply (missing_system_prompt_fails_first_turn Stub.repr
           Stub.PROMPT_TEMPLATES ∅ Stub.format Stub.non_stream_ok
           Stub.stream_ok Stub.first_turn [] 0 "Be creative: {prompt}"
           "Be creative: write a poem");
    reflexivity.
Defined.

Lemma prompts_are_logged_witness :
  exists before ev after,
    Stub.log Stub.non_stream_ok Stub.stream_ok Stub.first_turn [] 0
      = before ++ ev :: after /\
    adapter_call_of ev
      = Some (false, generation_kwargs "Write a vivid poem." []) /\
    LoggerInfo (prompt_line (false, generation_kwargs "Write a vivid poem." []))
      ∈ before.
Proof.
  apply (prompts_are_logged Stub.repr Stub.PROMPT_TEMPLATES
           Stub.SYSTEM_PROMPTS Stub.format Stub.non_stream_ok Stub.stream_ok
           Stub.first_turn [] 0
           (false, generation_kwargs "Write a vivid poem." [])).
  vm_compute. find_event.
Defined.
